(** * File Data Console: verification of the page logic of [src/app/page.tsx]

    Two parts.
    - [Js]: the IEEE-754 double arithmetic behind [formatFileSize]
      ([Math.log], [Math.floor], [**], [Number.prototype.toFixed]).
    - [FileManager]: the page state of [FileManagerPage] and its four
      operations [fetchFiles], [handleUpload], [handleDownload] and
      [handleDelete], written as explicit state passing.  Each operation
      is split at its first [await] into a start phase and a settle phase,
      so that interleavings of operations can be written down. *)

From Stdlib Require Import ZArith List String Bool Lia.
From Stdlib Require Import Floats.
Import ListNotations.

(* ------------------------------------------------------------------ *)
(** ** JavaScript numbers *)

Module Js.

Open Scope Z_scope.

(** The 64 bits of a double, as [EXTRACT_WORDS] sees them. *)
Definition bits_of_float (x : float) : Z :=
  match Prim2SF x with
  | S754_zero s => if s then Z.shiftl 1 63 else 0
  | S754_infinity s => Z.lor (if s then Z.shiftl 1 63 else 0) (Z.shiftl 2047 52)
  | S754_nan => Z.shiftl 4095 51
  | S754_finite s m e =>
      let sgn := if s then Z.shiftl 1 63 else 0 in
      if Z.ltb (Z.pos m) (Z.shiftl 1 52)
      then Z.lor sgn (Z.pos m)                       (* subnormal *)
      else Z.lor sgn (Z.lor (Z.shiftl (e + 1075) 52) (Z.pos m - Z.shiftl 1 52))
  end.

(** The double with the given 64 bits ([INSERT_WORDS]). *)
Definition float_of_bits (b : Z) : float :=
  let s := Z.testbit b 63 in
  let be := Z.land (Z.shiftr b 52) 2047 in
  let fr := Z.land b (Z.ones 52) in
  if Z.eqb be 2047 then
    (if Z.eqb fr 0 then SF2Prim (S754_infinity s) else SF2Prim S754_nan)
  else if Z.eqb be 0 then
    match fr with
    | Zpos p => SF2Prim (S754_finite s p (-1074)%Z)
    | _ => SF2Prim (S754_zero s)
    end
  else
    match (fr + Z.shiftl 1 52)%Z with
    | Zpos p => SF2Prim (S754_finite s p (be - 1075)%Z)
    | _ => SF2Prim S754_nan
    end.

(** Signed 32-bit high word ([GET_HIGH_WORD]), unsigned low word. *)
Definition high_word (x : float) : Z :=
  let h := Z.shiftr (bits_of_float x) 32 in
  if Z.ltb h (Z.shiftl 1 31) then h else h - Z.shiftl 1 32.

Definition low_word (x : float) : Z := Z.land (bits_of_float x) (Z.ones 32).

(** [SET_HIGH_WORD(x, hx)]: replace the high word, keep the low word. *)
Definition set_high_word (x : float) (hx : Z) : float :=
  float_of_bits (Z.lor (Z.shiftl (Z.land hx (Z.ones 32)) 32) (low_word x)).

(** [static_cast<double>(k)] for a small integer [k]. *)
Definition float_of_Z (k : Z) : float :=
  match k with
  | Z0 => PrimFloat.zero
  | Zpos p => of_uint63 (Uint63.of_Z (Zpos p))
  | Zneg p => (- of_uint63 (Uint63.of_Z (Zpos p)))%float
  end.

Open Scope float_scope.

(** [Math.log]: ECMAScript leaves its precision to the engine; this is
    fdlibm's [__ieee754_log], the routine V8 ([base::ieee754::log]) and
    SpiderMonkey run, transcribed line by line. *)
Definition Math_log (x0 : float) : float :=
  let ln2_hi := 0x1.62e42feep-1 (* 6.93147180369123816490e-01 *) in
  let ln2_lo := 0x1.a39ef35793c76p-33 (* 1.90821492927058770002e-10 *) in
  let two54 := 0x1p54 (* 1.80143985094819840000e+16 *) in
  let Lg1 := 0x1.5555555555593p-1 (* 6.666666666666735130e-01 *) in
  let Lg2 := 0x1.999999997fa04p-2 (* 3.999999999940941908e-01 *) in
  let Lg3 := 0x1.2492494229359p-2 (* 2.857142874366239149e-01 *) in
  let Lg4 := 0x1.c71c51d8e78afp-3 (* 2.222219843214978396e-01 *) in
  let Lg5 := 0x1.7466496cb03dep-3 (* 1.818357216161805012e-01 *) in
  let Lg6 := 0x1.39a09d078c69fp-3 (* 1.531383769920937332e-01 *) in
  let Lg7 := 0x1.2f112df3e5244p-3 (* 1.479819860511658591e-01 *) in
  let hx0 := high_word x0 in
  let lx := low_word x0 in
  (* x < 2**-1022: zero, negative or subnormal *)
  let pre :=
    if Z.ltb hx0 1048576%Z then
      if Z.eqb (Z.lor (Z.land hx0 2147483647%Z) lx) 0%Z then inl ((- two54) / 0)
      else if Z.ltb hx0 0%Z then inl ((x0 - x0) / 0)
      else let x1 := x0 * two54 in inr (x1, high_word x1, (-54)%Z)
    else inr (x0, hx0, 0%Z) in
  match pre with
  | inl r => r
  | inr (x, hx1, k0) =>
    if Z.leb 2146435072%Z hx1 then x + x else
    let k1 := (k0 + (Z.shiftr hx1 20 - 1023))%Z in
    let hx := Z.land hx1 1048575%Z in
    let i := Z.land (hx + 614244)%Z 1048576%Z in
    let x := set_high_word x (Z.lor hx (Z.lxor i 1072693248%Z)) in
    let k := (k1 + Z.shiftr i 20)%Z in
    let f := x - 1 in
    if Z.ltb (Z.land 1048575%Z (2 + hx)%Z) 3%Z then
      if f =? 0 then
        (if Z.eqb k 0 then 0
         else let dk := float_of_Z k in dk * ln2_hi + dk * ln2_lo)
      else
        let R := f * f * (0.5 - 0x1.5555555555555p-2 * f) in
        if Z.eqb k 0 then f - R
        else let dk := float_of_Z k in dk * ln2_hi - ((R - dk * ln2_lo) - f)
    else
      let s := f / (2 + f) in
      let dk := float_of_Z k in
      let z := s * s in
      let i := (hx - 398458)%Z in
      let w := z * z in
      let j := (440401 - hx)%Z in
      let t1 := w * (Lg2 + w * (Lg4 + w * Lg6)) in
      let t2 := z * (Lg1 + w * (Lg3 + w * (Lg5 + w * Lg7))) in
      let i := Z.lor i j in
      let R := t2 + t1 in
      if Z.ltb 0%Z i then
        let hfsq := 0.5 * f * f in
        if Z.eqb k 0 then f - (hfsq - s * (hfsq + R))
        else dk * ln2_hi - ((hfsq - (s * (hfsq + R) + dk * ln2_lo)) - f)
      else
        if Z.eqb k 0 then f - s * (f - R)
        else dk * ln2_hi - ((s * (f - R) - dk * ln2_lo) - f)
  end.

(** The integer value of an integral finite double. *)
Definition Z_of_integral (q : float) : Z :=
  match Prim2SF q with
  | S754_finite s m e =>
      let v := if Z.leb 0 e then Z.shiftl (Zpos m) e else Z.shiftr (Zpos m) (- e) in
      if s then (- v)%Z else v
  | _ => 0%Z
  end.

(** [Math.floor]: zeros, infinities, NaN and integral values are returned
    as they are; other finite values go to the next integer below. *)
Definition Math_floor (q : float) : float :=
  match Prim2SF q with
  | S754_finite s m e =>
      if Z.leb 0 e then q
      else
        let d := Z.shiftl 1 (- e) in
        let n := if s then (- ((Zpos m + d - 1) / d))%Z else (Zpos m / d)%Z in
        float_of_Z n
  | _ => q
  end.

(** [1024 ** index] ([Number::exponentiate]) for an exponent that is a
    [Math.floor] result: NaN gives NaN, [+Infinity] gives [+Infinity],
    [-Infinity] gives [+0], an integer [k] gives the double nearest to
    [2^(10 k)] (exact, or [Infinity], or [0] out of range). *)
Definition pow1024 (index : float) : float :=
  match Prim2SF index with
  | S754_nan => nan
  | S754_infinity false => infinity
  | S754_infinity true => 0
  | S754_zero _ => 1
  | S754_finite _ _ _ => Z.ldexp 1 (10 * Z_of_integral index)%Z
  end.

Local Open Scope string_scope.

Fixpoint decimal_aux (fuel : nat) (n : Z) (acc : string) : string :=
  match fuel with
  | O => acc
  | S fuel' =>
      let acc' := String (Ascii.ascii_of_nat (48 + Z.to_nat (n mod 10))) acc in
      if Z.ltb n 10 then acc' else decimal_aux fuel' (n / 10) acc'
  end.

(** Decimal digits of a non-negative integer, without leading zeros. *)
Definition decimal (n : Z) : string := decimal_aux 80 n "".

(** [x.toFixed(1)] ([Number.prototype.toFixed] with one fraction digit):
    [n] is the integer nearest to [10 x], the larger one on a tie.
    [None] is the case [|x| >= 10^21], where the spec hands over to
    [Number::toString]; this development does not model that routine. *)
Definition toFixed1 (x : float) : option string :=
  match Prim2SF x with
  | S754_nan => Some "NaN"
  | S754_infinity s => Some (if s then "-Infinity" else "Infinity")
  | S754_zero _ => Some "0.0"
  | S754_finite s m e =>
      if andb (Z.leb 0 e) (Z.leb (10 ^ 21) (Z.shiftl (Zpos m) e)) then None
      else
        let n :=
          if Z.leb 0 e then (10 * Z.shiftl (Zpos m) e)%Z
          else ((10 * Zpos m + Z.shiftl 1 (- e - 1)) / Z.shiftl 1 (- e))%Z in
        let digits := decimal n in
        let digits := if Nat.leb (String.length digits) 1
                       then String.append "0" digits else digits in
        let k := String.length digits in
        Some (String.append (if s then "-" else "")
               (String.append (substring 0 (k - 1) digits)
                 (String.append "." (substring (k - 1) 1 digits))))
  end.

End Js.

(* ------------------------------------------------------------------ *)
(** ** [formatFileSize] *)

Open Scope float_scope.

Definition units : list string := ["B"; "KB"; "MB"; "GB"; "TB"]%string.

(** [units[index]] for a [Math.floor] result: the key is [ToString(index)],
    an element for the integers [0 .. 4] (and [-0], printed ["0"]),
    [undefined] ([None]) for every other key. *)
Definition unit_at (index : float) : option string :=
  match Prim2SF index with
  | S754_zero _ => nth_error units 0
  | S754_finite false _ _ => nth_error units (Z.to_nat (Js.Z_of_integral index))
  | _ => None
  end.

(** [Math.floor(Math.log(sizeInBytes) / Math.log(1024))] *)
Definition fileSizeIndex (sizeInBytes : float) : float :=
  Js.Math_floor (Js.Math_log sizeInBytes / Js.Math_log 1024).

(** [formatFileSize]; [`${size.toFixed(1)} ${units[index]}`] prints
    [undefined] for a missing unit. *)
Definition formatFileSize (sizeInBytes : float) : option string :=
  if sizeInBytes =? 0 then Some "0 B"%string
  else
    let index := fileSizeIndex sizeInBytes in
    let size := sizeInBytes / Js.pow1024 index in
    match Js.toFixed1 size with
    | Some s =>
        Some (String.append s (String.append " "
                (match unit_at index with Some u => u | None => "undefined" end)))
    | None => None
    end.

(* ------------------------------------------------------------------ *)
(** ** The page: [FileManagerPage] *)

Close Scope float_scope.

Module FileRecord.
(** [type FileRecord]; the optional fields are [None] when absent. *)
Record t := mk {
  id : string;
  fileName : string;
  size : float;
  uploadedAt : string;
  contentType : option string;
  description : option string
}.
End FileRecord.

Module FileManager.

Local Open Scope string_scope.

(** A browser [File] chosen in the file input. *)
Record File := mkFile { name : string; fileSize : float; fileType : string }.

(** A value thrown inside a [try] block: an [Error] (or subclass, such
    as the [TypeError] of a failed [fetch]) with its [message], or some
    other value, for which [error instanceof Error] is false. *)
Inductive thrown :=
| ErrorObj (message : string)
| NonError.

(** [error instanceof Error ? error.message : fallback] *)
Definition error_message (e : thrown) (fallback : string) : string :=
  match e with
  | ErrorObj m => m
  | NonError => fallback
  end.

(** The HTTP requests the page sends.  The upload form carries the
    [description] field only when [description] is non-empty. *)
Inductive request :=
| GetFiles                                   (* GET /api/files, no-store *)
| PostUpload (f : File) (desc : option string) (* POST /api/files/upload *)
| GetDownload (fileId : string)              (* GET /api/files/{id}/download *)
| DeleteFile (fileId : string).              (* DELETE /api/files/{id} *)

(** What [await fetch(...)] and the body read after it produce: the
    call throws, or a response arrives whose [ok] flag is given together
    with what reading its body yields (only read when [ok]). *)
Inductive fetch_result (B : Type) :=
| FetchThrows (e : thrown)
| Responded (ok : bool) (body : B).
Arguments FetchThrows {B} e.
Arguments Responded {B} ok body.

(** The JSON payload of [GET /api/files]: a bare array, an object with a
    [files] array, or [null]. *)
Inductive payload :=
| PArray (records : list FileRecord.t)
| PWrapper (records : list FileRecord.t)
| PNull.

(** [await response.json()]: a payload, or a thrown parse error. *)
Inductive json_result :=
| JsonThrows (e : thrown)
| JsonOk (p : payload).

(** The statements of the save-as trigger that may throw. *)
Inductive dom_step := AppendChild | Click | RemoveChild.

(** [await response.blob()] and what follows it: the blob read throws,
    or the blob arrives and the trigger either runs through or one of its
    steps throws. *)
Inductive blob_result :=
| BlobThrows (e : thrown)
| BlobOk (trigger : option (dom_step * thrown)).

Definition msg_list := "ファイル一覧の取得に失敗しました。".
Definition msg_list_fallback := "予期せぬエラーが発生しました。".
Definition msg_select := "アップロードするファイルを選択してください。".
Definition msg_upload := "ファイルのアップロードに失敗しました。".
Definition msg_upload_fallback := "アップロード中にエラーが発生しました。".
Definition msg_download (fileName : string) := fileName ++ "のダウンロードに失敗しました。".
Definition msg_download_fallback := "ダウンロード中にエラーが発生しました。".
Definition msg_delete := "ファイルの削除に失敗しました。".
Definition msg_delete_fallback := "削除中にエラーが発生しました。".

(** The page state: the eight [useState] slots of [FileManagerPage],
    and the browser around them: the requests sent, the values passed to
    [console.error], the object URLs created and the [revokeObjectURL]
    calls. *)
Record State := mkState {
  files : list FileRecord.t;
  isLoading : bool;
  isUploading : bool;
  errorMessage : option string;
  selectedFile : option File;
  description : string;
  activeDownloadId : option string;
  deletingId : option string;
  requests : list request;
  consoleErrors : list thrown;
  objectUrls : list nat;
  revokedUrls : list nat
}.

Definition setFiles (v : list FileRecord.t) (s : State) : State :=
  mkState v (isLoading s) (isUploading s) (errorMessage s) (selectedFile s) (description s) (activeDownloadId s) (deletingId s) (requests s) (consoleErrors s) (objectUrls s) (revokedUrls s).

Definition setIsLoading (v : bool) (s : State) : State :=
  mkState (files s) v (isUploading s) (errorMessage s) (selectedFile s) (description s) (activeDownloadId s) (deletingId s) (requests s) (consoleErrors s) (objectUrls s) (revokedUrls s).

Definition setIsUploading (v : bool) (s : State) : State :=
  mkState (files s) (isLoading s) v (errorMessage s) (selectedFile s) (description s) (activeDownloadId s) (deletingId s) (requests s) (consoleErrors s) (objectUrls s) (revokedUrls s).

Definition setErrorMessage (v : option string) (s : State) : State :=
  mkState (files s) (isLoading s) (isUploading s) v (selectedFile s) (description s) (activeDownloadId s) (deletingId s) (requests s) (consoleErrors s) (objectUrls s) (revokedUrls s).

Definition setSelectedFile (v : option File) (s : State) : State :=
  mkState (files s) (isLoading s) (isUploading s) (errorMessage s) v (description s) (activeDownloadId s) (deletingId s) (requests s) (consoleErrors s) (objectUrls s) (revokedUrls s).

Definition setDescription (v : string) (s : State) : State :=
  mkState (files s) (isLoading s) (isUploading s) (errorMessage s) (selectedFile s) v (activeDownloadId s) (deletingId s) (requests s) (consoleErrors s) (objectUrls s) (revokedUrls s).

Definition setActiveDownloadId (v : option string) (s : State) : State :=
  mkState (files s) (isLoading s) (isUploading s) (errorMessage s) (selectedFile s) (description s) v (deletingId s) (requests s) (consoleErrors s) (objectUrls s) (revokedUrls s).

Definition setDeletingId (v : option string) (s : State) : State :=
  mkState (files s) (isLoading s) (isUploading s) (errorMessage s) (selectedFile s) (description s) (activeDownloadId s) v (requests s) (consoleErrors s) (objectUrls s) (revokedUrls s).

Definition sendRequest (r : request) (s : State) : State :=
  mkState (files s) (isLoading s) (isUploading s) (errorMessage s) (selectedFile s)
    (description s) (activeDownloadId s) (deletingId s) (app (requests s) [r])
    (consoleErrors s) (objectUrls s) (revokedUrls s).

(** [console.error(error)] *)
Definition consoleError (e : thrown) (s : State) : State :=
  mkState (files s) (isLoading s) (isUploading s) (errorMessage s) (selectedFile s)
    (description s) (activeDownloadId s) (deletingId s) (requests s)
    (app (consoleErrors s) [e]) (objectUrls s) (revokedUrls s).

(** [window.URL.createObjectURL(blob)]: a fresh URL, numbered in order
    of creation. *)
Definition createObjectURL (s : State) : nat * State :=
  let url := List.length (objectUrls s) in
  (url, mkState (files s) (isLoading s) (isUploading s) (errorMessage s) (selectedFile s)
          (description s) (activeDownloadId s) (deletingId s) (requests s)
          (consoleErrors s) (app (objectUrls s) [url]) (revokedUrls s)).

(** [window.URL.revokeObjectURL(url)] *)
Definition revokeObjectURL (url : nat) (s : State) : State :=
  mkState (files s) (isLoading s) (isUploading s) (errorMessage s) (selectedFile s)
    (description s) (activeDownloadId s) (deletingId s) (requests s)
    (consoleErrors s) (objectUrls s) (app (revokedUrls s) [url]).

(** The [catch] blocks: log, then show the message. *)
Definition fail (fallback : string) (e : thrown) (s : State) : State :=
  setErrorMessage (Some (error_message e fallback)) (consoleError e s).

(** *** [fetchFiles] *)

(** [payload.files ?? payload ?? []]; reading [files] of [null] throws a
    [TypeError]. *)
Definition files_of_payload (p : payload) : thrown + list FileRecord.t :=
  match p with
  | PArray l => inr l
  | PWrapper l => inr l
  | PNull => inl (ErrorObj "Cannot read properties of null (reading 'files')")
  end.

(** What the [try] block of [fetchFiles] ends in: a thrown value, or the
    list handed to [setFiles]. *)
Definition list_outcome (r : fetch_result json_result) : thrown + list FileRecord.t :=
  match r with
  | FetchThrows e => inl e
  | Responded false _ => inl (ErrorObj msg_list)
  | Responded true (JsonThrows e) => inl e
  | Responded true (JsonOk p) => files_of_payload p
  end.

(** Up to the first [await]: [setIsLoading(true)], [setErrorMessage(null)],
    the [fetch] call. *)
Definition fetchFiles_start (s : State) : State :=
  sendRequest GetFiles (setErrorMessage None (setIsLoading true s)).

(** After the response: [setFiles] or the [catch] block, then [finally]. *)
Definition fetchFiles_settle (r : fetch_result json_result) (s : State) : State :=
  let s := match list_outcome r with
           | inl e => fail msg_list_fallback e s
           | inr l => setFiles l s
           end in
  setIsLoading false s.

Definition fetchFiles (r : fetch_result json_result) (s : State) : State :=
  fetchFiles_settle r (fetchFiles_start s).

(** *** [handleUpload] *)

(** [if (description) formData.append("description", description)] *)
Definition formDescription (d : string) : option string :=
  if String.eqb d "" then None else Some d.

(** Past the [selectedFile] check: [setIsUploading(true)],
    [setErrorMessage(null)], the form data and the [fetch] call. *)
Definition handleUpload_start (f : File) (s : State) : State :=
  let s := setErrorMessage None (setIsUploading true s) in
  sendRequest (PostUpload f (formDescription (description s))) s.

(** After the upload response; on success the awaited [fetchFiles] runs
    with the listing result [lr]. *)
Definition handleUpload_settle (r : fetch_result unit) (lr : fetch_result json_result)
    (s : State) : State :=
  let s := match r with
           | FetchThrows e => fail msg_upload_fallback e s
           | Responded false _ => fail msg_upload_fallback (ErrorObj msg_upload) s
           | Responded true _ =>
               fetchFiles lr (setDescription "" (setSelectedFile None s))
           end in
  setIsUploading false s.

Definition handleUpload (r : fetch_result unit) (lr : fetch_result json_result)
    (s : State) : State :=
  match selectedFile s with
  | None => setErrorMessage (Some msg_select) s
  | Some f => handleUpload_settle r lr (handleUpload_start f s)
  end.

(** *** [handleDownload] *)

Definition handleDownload_start (file : FileRecord.t) (s : State) : State :=
  sendRequest (GetDownload (FileRecord.id file))
    (setErrorMessage None (setActiveDownloadId (Some (FileRecord.id file)) s)).

(** After the response: the blob, the object URL, the link, the click,
    the removal, the revocation, all inside the [try]; then [finally]. *)
Definition handleDownload_settle (file : FileRecord.t) (r : fetch_result blob_result)
    (s : State) : State :=
  let s := match r with
           | FetchThrows e => fail msg_download_fallback e s
           | Responded false _ =>
               fail msg_download_fallback (ErrorObj (msg_download (FileRecord.fileName file))) s
           | Responded true (BlobThrows e) => fail msg_download_fallback e s
           | Responded true (BlobOk trigger) =>
               let (url, s) := createObjectURL s in
               match trigger with
               | None => revokeObjectURL url s
               | Some (_, e) => fail msg_download_fallback e s
               end
           end in
  setActiveDownloadId None s.

Definition handleDownload (file : FileRecord.t) (r : fetch_result blob_result)
    (s : State) : State :=
  handleDownload_settle file r (handleDownload_start file s).

(** *** [handleDelete] *)

Definition handleDelete_start (fileId : string) (s : State) : State :=
  sendRequest (DeleteFile fileId) (setErrorMessage None (setDeletingId (Some fileId) s)).

(** On success the updater [previous.filter(file => file.id !== fileId)]
    runs on the files current at that time. *)
Definition handleDelete_settle (fileId : string) (r : fetch_result unit)
    (s : State) : State :=
  let s := match r with
           | FetchThrows e => fail msg_delete_fallback e s
           | Responded false _ => fail msg_delete_fallback (ErrorObj msg_delete) s
           | Responded true _ =>
               setFiles (filter (fun file => negb (String.eqb (FileRecord.id file) fileId))
                           (files s)) s
           end in
  setDeletingId None s.

Definition handleDelete (fileId : string) (r : fetch_result unit) (s : State) : State :=
  handleDelete_settle fileId r (handleDelete_start fileId s).

(** The state on mount, before the automatic [fetchFiles]. *)
Definition initialState : State :=
  mkState [] true false None None "" None None [] [] [] [].

End FileManager.

(* ------------------------------------------------------------------ *)
(** ** What the page renders, its input handlers and its mount effect *)

Module View.
Import FileManager.
Local Open Scope string_scope.

(** JavaScript truthiness of a [string | null]: [null] and [""] are
    falsy. *)
Definition truthy (m : option string) : bool :=
  match m with
  | Some str => negb (String.eqb str "")
  | None => false
  end.

(** [activeDownloadId === file.id] / [deletingId === file.id] *)
Definition same_id (slot : option string) (fileId : string) : bool :=
  match slot with
  | Some i => String.eqb i fileId
  | None => false
  end.

(** [disabled={activeDownloadId === file.id}] and its label. *)
Definition downloadDisabled (s : State) (file : FileRecord.t) : bool :=
  same_id (activeDownloadId s) (FileRecord.id file).
Definition downloadLabel (s : State) (file : FileRecord.t) : string :=
  if downloadDisabled s file then "生成中..." else "ダウンロード".

(** [disabled={deletingId === file.id}] and its label. *)
Definition deleteDisabled (s : State) (file : FileRecord.t) : bool :=
  same_id (deletingId s) (FileRecord.id file).
Definition deleteLabel (s : State) (file : FileRecord.t) : string :=
  if deleteDisabled s file then "削除中..." else "削除".

(** The refresh button: [disabled={isLoading}] and its label. *)
Definition refreshDisabled (s : State) : bool := isLoading s.
Definition refreshLabel (s : State) : string :=
  if isLoading s then "更新中..." else "最新の情報に更新".

(** The submit button: [disabled={isUploading}] and its label. *)
Definition uploadDisabled (s : State) : bool := isUploading s.
Definition uploadLabel (s : State) : string :=
  if isUploading s then "アップロード中..." else "アップロード".



(** [{errorMessage && ...}]: the error banner. *)
Definition showErrorBanner (s : State) : bool := truthy (errorMessage s).

(** [files.reduce((acc, file) => acc + file.size, 0)] *)
Definition totalSize (s : State) : float :=
  fold_left (fun acc file => (acc + FileRecord.size file)%float) (files s) 0%float.

(** The header figures: [files.length], [formatFileSize(totalSize)]. *)
Definition fileCount (s : State) : nat := List.length (files s).
Definition totalSizeText (s : State) : option string := formatFileSize (totalSize s).

(** The file input's [onChange]: [event.target.files?.[0]] then
    [setSelectedFile(file ?? null)]; [None] is a [null] [FileList]. *)
Definition onFileChange (chosen : option (list File)) (s : State) : State :=
  setSelectedFile
    (match chosen with
     | Some (f :: _) => Some f
     | _ => None
     end) s.

(** The description input's [onChange]. *)
Definition onDescriptionChange (value : string) (s : State) : State :=
  setDescription value s.


(** [formatFileSize(n)] is [expected], for an integer size [n]. *)
Definition formats_as (n : Z) (expected : string) : bool :=
  match formatFileSize (Js.float_of_Z n) with
  | Some str => String.eqb str expected
  | None => false
  end.

End View.

(* ------------------------------------------------------------------ *)
(** ** Runs of the page: interleaved operation phases and input edits *)

Module Trace.
Import FileManager View.
Local Open Scope string_scope.

(** [handleUpload] up to its first [await]: the [selectedFile] check,
    then the start phase. *)
Definition handleUpload_begin (s : State) : State :=
  match selectedFile s with
  | None => setErrorMessage (Some msg_select) s
  | Some f => handleUpload_start f s
  end.

(** One step of the page: a phase of an operation, with the outcome of
    its request for a settle phase, or an edit of an input. *)
Inductive event :=
| EListStart
| EListSettle (r : fetch_result json_result)
| EUploadBegin
| EUploadSettle (r : fetch_result unit) (lr : fetch_result json_result)
| EDownloadStart (file : FileRecord.t)
| EDownloadSettle (file : FileRecord.t) (r : fetch_result blob_result)
| EDeleteStart (fileId : string)
| EDeleteSettle (fileId : string) (r : fetch_result unit)
| EFileChange (chosen : option (list File))
| EDescriptionChange (value : string).

Definition step (ev : event) (s : State) : State :=
  match ev with
  | EListStart => fetchFiles_start s
  | EListSettle r => fetchFiles_settle r s
  | EUploadBegin => handleUpload_begin s
  | EUploadSettle r lr => handleUpload_settle r lr s
  | EDownloadStart file => handleDownload_start file s
  | EDownloadSettle file r => handleDownload_settle file r s
  | EDeleteStart fileId => handleDelete_start fileId s
  | EDeleteSettle fileId r => handleDelete_settle fileId r s
  | EFileChange chosen => onFileChange chosen s
  | EDescriptionChange value => onDescriptionChange value s
  end.

Definition run (tr : list event) (s : State) : State :=
  fold_left (fun s ev => step ev s) tr s.

(** The message the [catch] block (or the upload's validation branch) of
    the step writes, when the step is a failed attempt: the thrown
    value's message or the handler's fallback text.  A 2xx upload fails
    when its follow-up listing does. *)
Definition failure_message (ev : event) (s : State) : option string :=
  match ev with
  | EListSettle r =>
      match list_outcome r with
      | inl e => Some (error_message e msg_list_fallback)
      | inr _ => None
      end
  | EUploadBegin =>
      match selectedFile s with None => Some msg_select | Some _ => None end
  | EUploadSettle (FetchThrows e) _ => Some (error_message e msg_upload_fallback)
  | EUploadSettle (Responded false _) _ => Some msg_upload
  | EUploadSettle (Responded true _) lr =>
      match list_outcome lr with
      | inl e => Some (error_message e msg_list_fallback)
      | inr _ => None
      end
  | EDownloadSettle _ (FetchThrows e) => Some (error_message e msg_download_fallback)
  | EDownloadSettle file (Responded false _) => Some (msg_download (FileRecord.fileName file))
  | EDownloadSettle _ (Responded true (BlobThrows e)) =>
      Some (error_message e msg_download_fallback)
  | EDownloadSettle _ (Responded true (BlobOk (Some (_, e)))) =>
      Some (error_message e msg_download_fallback)
  | EDeleteSettle _ (FetchThrows e) => Some (error_message e msg_delete_fallback)
  | EDeleteSettle _ (Responded false _) => Some msg_delete
  | _ => None
  end.

(** The steps that neither start an attempt nor fail: successful settles
    of a listing, download or delete, and input edits. *)
Definition keeps (ev : event) : bool :=
  match ev with
  | EListSettle r => match list_outcome r with inl _ => false | inr _ => true end
  | EDownloadSettle _ (Responded true (BlobOk None)) => true
  | EDeleteSettle _ (Responded true _) => true
  | EFileChange _ | EDescriptionChange _ => true
  | _ => false
  end.

(** The steps that begin an attempt: starts of the four operations (an
    upload only past its file check). *)
Definition starts_attempt (ev : event) (s : State) : bool :=
  match ev with
  | EListStart | EDownloadStart _ | EDeleteStart _ => true
  | EUploadBegin => match selectedFile s with Some _ => true | None => false end
  | _ => false
  end.

(** The steps that are not failures: those that keep the message, and a
    2xx upload whose follow-up listing succeeds. *)
Definition no_failure (ev : event) : bool :=
  match ev with
  | EUploadSettle (Responded true _) lr =>
      match list_outcome lr with inl _ => false | inr _ => true end
  | _ => keeps ev
  end.

Definition touches_download (ev : event) : bool :=
  match ev with EDownloadStart _ | EDownloadSettle _ _ => true | _ => false end.

Definition touches_delete (ev : event) : bool :=
  match ev with EDeleteStart _ | EDeleteSettle _ _ => true | _ => false end.


End Trace.

(* ------------------------------------------------------------------ *)
(** ** Properties *)

Import FileManager.
Local Open Scope string_scope.

(** A response counts as a success when it arrives with [ok] set. *)
Definition response_ok {B} (r : fetch_result B) : bool :=
  match r with
  | Responded true _ => true
  | _ => false
  end.

(** Two records used in the examples below. *)
Definition rec_f1 : FileRecord.t :=
  FileRecord.mk "f1" "a.txt" 10%float "2024-01-01T00:00:00Z" None None.
Definition rec_f2 : FileRecord.t :=
  FileRecord.mk "f2" "b.txt" 20%float "2024-01-02T00:00:00Z" None (Some "memo").

(** The download of a file whose blob arrives creates the object URL
    numbered [length (objectUrls s)] and revokes it exactly once when
    the save-as trigger runs through. *)
Lemma download_revokes_once_on_success :
  forall file s,
    let url := List.length (objectUrls s) in
    let s' := handleDownload file (Responded true (BlobOk None)) s in
    In url (objectUrls s') /\
    count_occ Nat.eq_dec (revokedUrls s') url =
      S (count_occ Nat.eq_dec (revokedUrls s) url).
Proof.
  intros file s url s'. subst url s'. cbn. split.
  - apply in_or_app. right. left. reflexivity.
  - rewrite count_occ_app. cbn.
    destruct (Nat.eq_dec _ _) as [_|n]; [lia | contradiction n; reflexivity].
Qed.

(** Case analysis on every outcome carried by the steps of a run. *)
Ltac outcome_cases :=
  repeat match goal with
  | r : fetch_result _ |- _ => destruct r as [?e | [|] ?body]
  | j : json_result |- _ => destruct j as [?e | [?l | ?l |]]
  | b : blob_result |- _ => destruct b as [?e | [[?st ?e] |]]
  | u : unit |- _ => destruct u
  end.

Lemma run_snoc : forall tr ev s,
  Trace.run (app tr [ev]) s = Trace.step ev (Trace.run tr s).
Proof. intros. unfold Trace.run. rewrite fold_left_app. reflexivity. Qed.

Lemma run_cons : forall ev tr s,
  Trace.run (ev :: tr) s = Trace.run tr (Trace.step ev s).
Proof. reflexivity. Qed.

(** What each step leaves in [errorMessage]: the message of the failed
    attempt it completes; otherwise the old value when it [keeps], and
    nothing when it starts an attempt. *)
Lemma step_errorMessage : forall ev s,
  errorMessage (Trace.step ev s) =
  match Trace.failure_message ev s with
  | Some m => Some m
  | None => if Trace.keeps ev then errorMessage s else None
  end.
Proof.
  intros ev s. destruct ev; outcome_cases; try reflexivity.
  cbn. unfold Trace.handleUpload_begin. destruct (selectedFile s); reflexivity.
Qed.

Lemma no_failure_keeps_clear : forall ev s,
  Trace.no_failure ev = true -> errorMessage s = None ->
  errorMessage (Trace.step ev s) = None.
Proof.
  intros ev s Hn H0. rewrite step_errorMessage.
  destruct ev; outcome_cases; cbn in *; try discriminate; try reflexivity; exact H0.
Qed.

Lemma step_activeDownloadId : forall ev s,
  Trace.touches_download ev = false ->
  activeDownloadId (Trace.step ev s) = activeDownloadId s.
Proof.
  intros ev s H. destruct ev; outcome_cases; try discriminate; try reflexivity.
  cbn. unfold Trace.handleUpload_begin. destruct (selectedFile s); reflexivity.
Qed.

Lemma step_deletingId : forall ev s,
  Trace.touches_delete ev = false ->
  deletingId (Trace.step ev s) = deletingId s.
Proof.
  intros ev s H. destruct ev; outcome_cases; try discriminate; try reflexivity.
  cbn. unfold Trace.handleUpload_begin. destruct (selectedFile s); reflexivity.
Qed.


Lemma run_preserves : forall (P : State -> Prop) (ok : Trace.event -> bool),
  (forall ev s, ok ev = true -> P s -> P (Trace.step ev s)) ->
  forall tr s, forallb ok tr = true -> P s -> P (Trace.run tr s).
Proof.
  intros P ok Hstep tr. induction tr as [|ev tr IH]; intros s Hok Hs; [exact Hs|].
  cbn in Hok. apply andb_prop in Hok as [H1 H2].
  rewrite run_cons. apply IH; [exact H2|]. apply Hstep; assumption.
Qed.

(** C1: whatever the request yields (success, a non-2xx status, a thrown
    transport or parse error), settling an operation puts its in-flight
    flag back to idle: [isLoading = false] after [fetchFiles],
    [isUploading = false] after [handleUpload], [activeDownloadId = null]
    after [handleDownload], [deletingId = null] after [handleDelete].  It
    holds for the settle phase run on any state, so also when other
    operations interleave, and for the whole operations. *)
Theorem in_flight_flags_reset :
  (forall r s, isLoading (fetchFiles_settle r s) = false) /\
  (forall r lr s, isUploading (handleUpload_settle r lr s) = false) /\
  (forall file r s, activeDownloadId (handleDownload_settle file r s) = None) /\
  (forall fileId r s, deletingId (handleDelete_settle fileId r s) = None) /\
  (forall r s, isLoading (fetchFiles r s) = false) /\
  (forall file r s, activeDownloadId (handleDownload file r s) = None) /\
  (forall fileId r s, deletingId (handleDelete fileId r s) = None).
Proof. repeat split; reflexivity. Qed.

(** C2: the object URL of a download is not revoked when a step of the
    save-as trigger throws.  From the initial state, downloading [rec_f1]
    with a 2xx response whose [link.click()] throws creates the object
    URL [0] and never revokes it: [revokeObjectURL] sits in the [try]
    block after the trigger, not in the [finally]. *)
Theorem download_click_throw_leaks_url :
  let s := handleDownload rec_f1
             (Responded true (BlobOk (Some (Click, ErrorObj "click failed"))))
             initialState in
  objectUrls s = [0] /\ count_occ Nat.eq_dec (revokedUrls s) 0 = 0 /\
  activeDownloadId s = None /\ errorMessage s = Some "click failed".
Proof. repeat split; reflexivity. Qed.

(** C3: a successful listing replaces [files] by the records of the
    response, whatever [files] held before; a bare array and an object
    with a [files] field give the same list. *)
Theorem list_success_replaces_files :
  forall l s,
    files (fetchFiles_settle (Responded true (JsonOk (PArray l))) s) = l /\
    files (fetchFiles_settle (Responded true (JsonOk (PWrapper l))) s) = l /\
    files (fetchFiles (Responded true (JsonOk (PArray l))) s) = l /\
    files (fetchFiles (Responded true (JsonOk (PWrapper l))) s) = l /\
    files_of_payload (PArray l) = files_of_payload (PWrapper l).
Proof. intros l s. repeat split; reflexivity. Qed.

(** C4: a failing listing (non-2xx status, thrown [fetch], thrown
    [json()] or unreadable payload) leaves [files] as it was and sets
    [errorMessage] to the thrown error's message (or the fallback text);
    for a non-2xx status that is the fixed listing-failed text. *)
Theorem list_failure_keeps_files :
  (forall r e s, list_outcome r = inl e ->
     files (fetchFiles r s) = files s /\
     errorMessage (fetchFiles r s) = Some (error_message e msg_list_fallback)) /\
  (forall body s, errorMessage (fetchFiles (Responded false body) s) = Some msg_list).
Proof.
  split.
  - intros r e s H. unfold fetchFiles, fetchFiles_settle. rewrite H. split; reflexivity.
  - intros body s. reflexivity.
Qed.

Lemma list_failure_keeps_files_witness :
  list_outcome (Responded false (JsonOk (PArray []))) = inl (ErrorObj msg_list) /\
  files (fetchFiles (Responded false (JsonOk (PArray []))) (setFiles [rec_f1] initialState))
    = [rec_f1].
Proof.
  split; [reflexivity|].
  apply (proj1 list_failure_keeps_files _ (ErrorObj msg_list)). reflexivity.
Defined.

(** C5: [handleUpload] with no file selected sends no request, sets
    [errorMessage] to the validation text and changes nothing else. *)
Theorem upload_without_file_rejected :
  forall r lr s, selectedFile s = None ->
    handleUpload r lr s = setErrorMessage (Some msg_select) s /\
    requests (handleUpload r lr s) = requests s /\
    errorMessage (handleUpload r lr s) = Some msg_select /\
    files (handleUpload r lr s) = files s /\
    isUploading (handleUpload r lr s) = isUploading s /\
    selectedFile (handleUpload r lr s) = None /\
    description (handleUpload r lr s) = description s.
Proof.
  intros r lr s H.
  assert (E : handleUpload r lr s = setErrorMessage (Some msg_select) s)
    by (unfold handleUpload; rewrite H; reflexivity).
  rewrite E. repeat split; try reflexivity. exact H.
Qed.

Lemma upload_without_file_rejected_witness :
  requests (handleUpload (Responded true tt) (Responded true (JsonOk (PArray [])))
              initialState) = [].
Proof.
  apply (upload_without_file_rejected (Responded true tt)
           (Responded true (JsonOk (PArray []))) initialState).
  reflexivity.
Defined.

(** C6: with a file [f] selected, a 2xx upload response clears
    [selectedFile] and [description] and is followed by exactly one
    listing request; a failed upload (non-2xx or thrown) sets
    [errorMessage] and keeps [selectedFile] and [description]. *)
Theorem upload_outcomes :
  forall f lr s, selectedFile s = Some f ->
    (forall body,
       let s' := handleUpload (Responded true body) lr s in
       selectedFile s' = None /\ description s' = "" /\
       requests s' = requests s ++ [PostUpload f (formDescription (description s)); GetFiles])%list /\
    (forall r, response_ok r = false ->
       let s' := handleUpload r lr s in
       (exists m, errorMessage s' = Some m) /\
       selectedFile s' = Some f /\ description s' = description s /\
       requests s' = requests s ++ [PostUpload f (formDescription (description s))])%list.
Proof.
  intros f lr s H. split.
  - intros body s'. subst s'. unfold handleUpload. rewrite H. cbn.
    destruct (list_outcome lr); cbn; repeat split; rewrite <- !app_assoc; reflexivity.
  - intros r Hr s'. subst s'. unfold handleUpload. rewrite H.
    destruct r as [e|[|] body]; try discriminate; cbn.
    + repeat split; [eexists; reflexivity | exact H].
    + repeat split; [eexists; reflexivity | exact H].
Qed.

Lemma upload_outcomes_witness :
  selectedFile (handleUpload (Responded true tt) (Responded true (JsonOk (PArray [rec_f1])))
                  (setSelectedFile (Some (mkFile "a.txt" 10%float "text/plain")) initialState))
    = None.
Proof.
  apply (proj1 (upload_outcomes (mkFile "a.txt" 10%float "text/plain")
                  (Responded true (JsonOk (PArray [rec_f1])))
                  (setSelectedFile (Some (mkFile "a.txt" 10%float "text/plain")) initialState)
                  eq_refl) tt).
Defined.

(** C7: a 2xx delete keeps, in order, the records whose [id] differs
    from the deleted one ([[f1; f2]] minus ["f1"] is [[f2]]); a failed
    delete leaves [files] as it was and sets [errorMessage]. *)
Theorem delete_outcomes :
  (forall fileId body s,
     files (handleDelete fileId (Responded true body) s) =
       filter (fun file => negb (String.eqb (FileRecord.id file) fileId)) (files s)) /\
  (forall fileId r s, response_ok r = false ->
     files (handleDelete fileId r s) = files s /\
     exists m, errorMessage (handleDelete fileId r s) = Some m) /\
  files (handleDelete "f1" (Responded true tt) (setFiles [rec_f1; rec_f2] initialState))
    = [rec_f2].
Proof.
  split; [|split].
  - intros. reflexivity.
  - intros fileId r s Hr.
    destruct r as [e|[|] body]; try discriminate;
      (split; [reflexivity | eexists; reflexivity]).
  - reflexivity.
Qed.

Lemma delete_outcomes_witness :
  files (handleDelete "f3" (Responded false tt) (setFiles [rec_f1; rec_f2] initialState))
    = [rec_f1; rec_f2].
Proof.
  apply (proj1 (proj2 delete_outcomes) "f3" (Responded false tt)
           (setFiles [rec_f1; rec_f2] initialState) eq_refl).
Defined.

(** C8: [formatFileSize(0) = "0 B"], [formatFileSize(1536) = "1.5 KB"],
    [formatFileSize(1073741824) = "1.0 GB"]. *)
Theorem formatFileSize_examples :
  formatFileSize 0%float = Some "0 B" /\
  formatFileSize 1536%float = Some "1.5 KB" /\
  formatFileSize 1073741824%float = Some "1.0 GB".
Proof. repeat split; vm_compute; reflexivity. Qed.

(** C9: every operation attempt clears [errorMessage] when it starts, so
    at any moment [errorMessage] holds at most the message of the most
    recent failed attempt: errors never stack, and a stale error from an
    earlier operation is never shown once a new operation has started.
    Stated for runs of arbitrarily interleaved phases: the start phases
    of the four operations set [errorMessage] to [None]; an upload
    attempt without a file leaves exactly what clearing and then setting
    the validation text leaves; a failing step stores its own message;
    after an attempt starts, as long as nothing fails, [errorMessage]
    stays [None]; whenever [errorMessage] is [Some m], [m] is the message
    of the last failing step of the run and every later step is one that
    neither starts nor fails an attempt (or nothing happened and [m] was
    already there); and what a whole operation leaves in [errorMessage]
    does not depend on the error shown before it. *)
Theorem error_message_most_recent_failure :
  (forall s, errorMessage (fetchFiles_start s) = None) /\
  (forall f s, errorMessage (handleUpload_start f s) = None) /\
  (forall file s, errorMessage (handleDownload_start file s) = None) /\
  (forall fileId s, errorMessage (handleDelete_start fileId s) = None) /\
  (forall r lr s, selectedFile s = None ->
     handleUpload r lr s = setErrorMessage (Some msg_select) (setErrorMessage None s)) /\
  (forall ev s m, Trace.failure_message ev s = Some m ->
     errorMessage (Trace.step ev s) = Some m) /\
  (forall ev s tr, Trace.starts_attempt ev s = true ->
     forallb Trace.no_failure tr = true ->
     errorMessage (Trace.run tr (Trace.step ev s)) = None) /\
  (forall tr s m, errorMessage (Trace.run tr s) = Some m ->
     (forallb Trace.keeps tr = true /\ errorMessage s = Some m) \/
     exists pre ev suf, tr = (pre ++ ev :: suf)%list /\
       Trace.failure_message ev (Trace.run pre s) = Some m /\
       forallb Trace.keeps suf = true) /\
  (forall r m s, errorMessage (fetchFiles r (setErrorMessage m s)) =
                 errorMessage (fetchFiles r s)) /\
  (forall r lr m s, errorMessage (handleUpload r lr (setErrorMessage m s)) =
                    errorMessage (handleUpload r lr s)) /\
  (forall file r m s, errorMessage (handleDownload file r (setErrorMessage m s)) =
                      errorMessage (handleDownload file r s)) /\
  (forall fileId r m s, errorMessage (handleDelete fileId r (setErrorMessage m s)) =
                        errorMessage (handleDelete fileId r s)).
Proof.
  split; [reflexivity|]. split; [reflexivity|].
  split; [reflexivity|]. split; [reflexivity|].
  split; [intros r lr s H; unfold handleUpload; rewrite H; reflexivity|].
  split; [intros ev s m H; rewrite step_errorMessage, H; reflexivity|].
  split.
  { intros ev s tr Hs Ht.
    apply (run_preserves (fun s => errorMessage s = None) Trace.no_failure);
      [exact no_failure_keeps_clear | exact Ht |].
    rewrite step_errorMessage.
    destruct ev; cbn in Hs; try discriminate; try reflexivity.
    cbn. destruct (selectedFile s); [reflexivity | discriminate]. }
  split.
  { intros tr. induction tr as [|ev tr IH] using rev_ind; intros s m H.
    - left. split; [reflexivity | exact H].
    - rewrite run_snoc, step_errorMessage in H.
      destruct (Trace.failure_message ev (Trace.run tr s)) as [m'|] eqn:Hf.
      + injection H as <-. right. exists tr, ev, []. split; [reflexivity|].
        split; [exact Hf | reflexivity].
      + destruct (Trace.keeps ev) eqn:Hk; [|discriminate].
        destruct (IH s m H) as [[H1 H2] | (pre & e & suf & -> & H1 & H2)].
        * left. rewrite forallb_app, H1. cbn. rewrite Hk. split; [reflexivity | exact H2].
        * right. exists pre, e, (app suf [ev]). split.
          -- rewrite <- app_assoc. reflexivity.
          -- split; [exact H1|]. rewrite forallb_app, H2. cbn. rewrite Hk. reflexivity. }
  split; [intros r m s; destruct r as [e|[|] [e|[l|l|]]]; reflexivity|].
  split.
  - intros r lr m s. unfold handleUpload. cbn.
    destruct (selectedFile s); [|reflexivity].
    destruct r as [e|[|] body]; [reflexivity| |reflexivity].
    destruct lr as [e|[|] [e|[l|l|]]]; reflexivity.
  - split.
    + intros file r m s. destruct r as [e|[|] [e|[[step e]|]]]; reflexivity.
    + intros fileId r m s. destruct r as [e|[|] body]; reflexivity.
Qed.

(** A listing starts over a shown delete error; its successful settle
    leaves nothing shown. *)
Lemma error_message_most_recent_failure_witness :
  Trace.starts_attempt Trace.EListStart (setErrorMessage (Some msg_delete) initialState) = true /\
  errorMessage (Trace.run [Trace.EListSettle (Responded true (JsonOk (PArray [rec_f1])))]
                  (Trace.step Trace.EListStart (setErrorMessage (Some msg_delete) initialState)))
    = None.
Proof.
  split; [reflexivity|].
  apply (proj1 (proj2 (proj2 (proj2 (proj2 (proj2 (proj2
           error_message_most_recent_failure)))))));
    reflexivity.
Defined.

(** C10: below [1024^5] the unit index is not always inside [units]:
    for [2^50 - 1 = 1125899906842623] the double [Math.log] rounds to
    [Math.log(2^50)], the quotient by [Math.log(1024)] is exactly [5],
    [units[5]] is [undefined] and the text is ["1.0 undefined"]. *)
Theorem formatFileSize_index_5_below_1024_pow_5 :
  (1125899906842623 < 1024 ^ 5)%Z /\
  Js.Z_of_integral 1125899906842623%float = 1125899906842623%Z /\
  fileSizeIndex 1125899906842623%float = 5%float /\
  unit_at (fileSizeIndex 1125899906842623%float) = None /\
  formatFileSize 1125899906842623%float = Some "1.0 undefined".
Proof. repeat split; vm_compute; reflexivity. Qed.

(** Three below [2^50 - 3] the index is back to [4]. *)
Lemma formatFileSize_just_below_threshold :
  formatFileSize 1125899906842620%float = Some "1024.0 TB" /\
  formatFileSize 1125899906842621%float = Some "1.0 undefined".
Proof. split; vm_compute; reflexivity. Qed.

(* ------------------------------------------------------------------ *)
(** ** Further properties of the page *)

Import View.

Lemma forallb_Z_range (p : Z -> bool) (lo : Z) (len : nat) :
  forallb (fun k => p (Z.of_nat k)) (seq (Z.to_nat lo) len) = true ->
  (0 <= lo)%Z ->
  forall n, (lo <= n < lo + Z.of_nat len)%Z -> p n = true.
Proof.
  intros H Hlo n Hn.
  rewrite forallb_forall in H.
  replace n with (Z.of_nat (Z.to_nat n)) by lia.
  apply H, in_seq. lia.
Qed.

(** Sizes of 1 to 1023 bytes are shown as the integer with one zero
    decimal and the unit [B]. *)
Theorem formatFileSize_bytes :
  forall n, (1 <= n <= 1023)%Z ->
    formatFileSize (Js.float_of_Z n) = Some (Js.decimal n ++ ".0 B").
Proof.
  intros n Hn.
  assert (H : formats_as n (Js.decimal n ++ ".0 B") = true).
  { apply (forallb_Z_range (fun k => formats_as k (Js.decimal k ++ ".0 B")) 1 1023);
      [vm_compute; reflexivity | lia | lia]. }
  unfold formats_as in H.
  destruct (formatFileSize (Js.float_of_Z n)) as [str|]; [|discriminate].
  apply String.eqb_eq in H. subst str. reflexivity.
Qed.

Lemma formatFileSize_bytes_witness :
  formatFileSize 512%float = Some "512.0 B".
Proof. apply (formatFileSize_bytes 512%Z). lia. Defined.

(** Whole multiples [n * 1024] of a kibibyte, for [n] from 1 to 1023,
    are shown as [n.0 KB]. *)
Theorem formatFileSize_whole_kibibytes :
  forall n, (1 <= n <= 1023)%Z ->
    formatFileSize (Js.float_of_Z (n * 1024)) = Some (Js.decimal n ++ ".0 KB").
Proof.
  intros n Hn.
  assert (H : formats_as (n * 1024) (Js.decimal n ++ ".0 KB") = true).
  { apply (forallb_Z_range (fun k => formats_as (k * 1024) (Js.decimal k ++ ".0 KB")) 1 1023);
      [vm_compute; reflexivity | lia | lia]. }
  unfold formats_as in H.
  destruct (formatFileSize (Js.float_of_Z (n * 1024))) as [str|]; [|discriminate].
  apply String.eqb_eq in H. subst str. reflexivity.
Qed.

Lemma formatFileSize_whole_kibibytes_witness :
  formatFileSize 3072%float = Some "3.0 KB".
Proof. apply (formatFileSize_whole_kibibytes 3%Z). lia. Defined.

(** At each unit boundary [1024^k] (k = 1..4) the size is shown as [1.0]
    of that unit, and one byte less is shown as [1024.0] of the unit
    below (for [k = 1], [1023.0 B]): [toFixed(1)] rounds up to 1024. *)
Theorem formatFileSize_unit_boundaries :
  forall k, (1 <= k <= 4)%Z ->
    formatFileSize (Js.float_of_Z (2 ^ (10 * k)))
      = Some ("1.0 " ++ nth (Z.to_nat k) units "") /\
    formatFileSize (Js.float_of_Z (2 ^ (10 * k) - 1))
      = Some ((if Z.eqb k 1 then "1023.0 " else "1024.0 ")
              ++ nth (Z.to_nat (k - 1)) units "").
Proof.
  intros k Hk.
  assert (Hc : (k = 1 \/ k = 2 \/ k = 3 \/ k = 4)%Z) by lia.
  destruct Hc as [Hc|[Hc|[Hc|Hc]]]; subst k; split; vm_compute; reflexivity.
Qed.

Lemma formatFileSize_unit_boundaries_witness :
  formatFileSize 1048575%float = Some "1024.0 KB".
Proof. apply (formatFileSize_unit_boundaries 2%Z). lia. Defined.

Lemma filter_idem {A} (p : A -> bool) (l : list A) :
  filter p (filter p l) = filter p l.
Proof.
  induction l as [|a l IH]; cbn; [reflexivity|].
  destruct (p a) eqn:E; cbn; [rewrite E, IH|]; auto.
Qed.

Lemma filter_all_true {A} (p : A -> bool) (l : list A) :
  (forall a, In a l -> p a = true) -> filter p l = l.
Proof.
  induction l as [|a l IH]; intros H; cbn; [reflexivity|].
  rewrite (H a (or_introl eq_refl)), IH; auto.
  intros b Hb. apply H. right. exact Hb.
Qed.

(** A successful delete leaves no record with the deleted id, keeps every
    record with another id, and a second successful delete of the same
    id changes nothing more. *)
Theorem delete_success_removes_id :
  forall fileId body body' s,
    let s' := handleDelete fileId (Responded true body) s in
    (forall f, In f (files s') -> FileRecord.id f <> fileId) /\
    (forall f, In f (files s) -> FileRecord.id f <> fileId -> In f (files s')) /\
    files (handleDelete fileId (Responded true body') s') = files s'.
Proof.
  intros fileId body body' s s'. subst s'. cbn. split; [|split].
  - intros f Hf. apply filter_In in Hf as [_ Hf].
    apply negb_true_iff, String.eqb_neq in Hf. exact Hf.
  - intros f Hf Hne. apply filter_In. split; [exact Hf|].
    apply negb_true_iff, String.eqb_neq. exact Hne.
  - apply filter_idem.
Qed.

(** A successful delete of an id that no listed record carries leaves
    [files] as it is. *)
Theorem delete_absent_id_keeps_files :
  forall fileId body s,
    (forall f, In f (files s) -> FileRecord.id f <> fileId) ->
    files (handleDelete fileId (Responded true body) s) = files s.
Proof.
  intros fileId body s H. cbn. apply filter_all_true.
  intros f Hf. apply negb_true_iff, String.eqb_neq, H, Hf.
Qed.

Lemma delete_absent_id_keeps_files_witness :
  files (handleDelete "f3" (Responded true tt) (setFiles [rec_f1; rec_f2] initialState))
    = [rec_f1; rec_f2].
Proof.
  apply delete_absent_id_keeps_files.
  intros f [<-|[<-|[]]]; discriminate.
Defined.

(** Downloads and deletes, whatever their outcome, leave the upload form
    ([selectedFile], [description]) and the other operations' flags
    alone; a download never changes [files]. *)
Theorem download_delete_frame :
  (forall file r s,
     let s' := handleDownload file r s in
     files s' = files s /\ selectedFile s' = selectedFile s /\
     description s' = description s /\ isLoading s' = isLoading s /\
     isUploading s' = isUploading s /\ deletingId s' = deletingId s) /\
  (forall fileId r s,
     let s' := handleDelete fileId r s in
     selectedFile s' = selectedFile s /\ description s' = description s /\
     isLoading s' = isLoading s /\ isUploading s' = isUploading s /\
     activeDownloadId s' = activeDownloadId s).
Proof.
  split.
  - intros file r s s'. subst s'.
    destruct r as [e|[|] [e|[[st e]|]]]; repeat split.
  - intros fileId r s s'. subst s'.
    destruct r as [e|[|] body]; repeat split.
Qed.

(** While a download of [file] is in flight and no other download has
    started or settled since, exactly the rows whose id is [file]'s have
    a disabled download button labelled as in progress, whatever else
    happens meanwhile (listings, uploads, deletes, input edits); once a
    download settles, every row's download button is enabled again.  The
    slot is shared by all downloads (see [overlapping_downloads_share_flag]). *)
Theorem download_button_gating :
  (forall file s tr row,
     forallb (fun ev => negb (Trace.touches_download ev)) tr = true ->
     let s' := Trace.run tr (handleDownload_start file s) in
     downloadDisabled s' row = String.eqb (FileRecord.id file) (FileRecord.id row) /\
     downloadLabel s' row
       = if String.eqb (FileRecord.id file) (FileRecord.id row)
         then "生成中..." else "ダウンロード") /\
  (forall file r s row,
     downloadDisabled (handleDownload_settle file r s) row = false /\
     downloadLabel (handleDownload_settle file r s) row = "ダウンロード").
Proof.
  split; [|intros; split; reflexivity].
  intros file s tr row Ht s'.
  assert (Hs : activeDownloadId s' = Some (FileRecord.id file)).
  { apply (run_preserves (fun s => activeDownloadId s = Some (FileRecord.id file))
             (fun ev => negb (Trace.touches_download ev))); [|exact Ht|reflexivity].
    intros ev s0 Hev H0. rewrite step_activeDownloadId; [exact H0|].
    destruct (Trace.touches_download ev); [discriminate|reflexivity]. }
  unfold downloadLabel, downloadDisabled. rewrite Hs. split; reflexivity.
Qed.

Lemma download_button_gating_witness :
  forallb (fun ev => negb (Trace.touches_download ev))
    [Trace.EListStart; Trace.EDeleteStart "f2"] = true /\
  downloadDisabled (Trace.run [Trace.EListStart; Trace.EDeleteStart "f2"]
                      (handleDownload_start rec_f1 initialState)) rec_f1 = true.
Proof.
  split; [reflexivity|].
  apply (proj1 (proj1 download_button_gating rec_f1 initialState
                  [Trace.EListStart; Trace.EDeleteStart "f2"] rec_f1 eq_refl)).
Defined.

(** The same for deletes and the delete buttons: while a delete of
    [fileId] is in flight and no other delete has started or settled
    since, exactly the rows with that id are disabled; once a delete
    settles, all are enabled again. *)
Theorem delete_button_gating :
  (forall fileId s tr row,
     forallb (fun ev => negb (Trace.touches_delete ev)) tr = true ->
     let s' := Trace.run tr (handleDelete_start fileId s) in
     deleteDisabled s' row = String.eqb fileId (FileRecord.id row) /\
     deleteLabel s' row
       = if String.eqb fileId (FileRecord.id row) then "削除中..." else "削除") /\
  (forall fileId r s row,
     deleteDisabled (handleDelete_settle fileId r s) row = false /\
     deleteLabel (handleDelete_settle fileId r s) row = "削除").
Proof.
  split; [|intros; split; reflexivity].
  intros fileId s tr row Ht s'.
  assert (Hs : deletingId s' = Some fileId).
  { apply (run_preserves (fun s => deletingId s = Some fileId)
             (fun ev => negb (Trace.touches_delete ev))); [|exact Ht|reflexivity].
    intros ev s0 Hev H0. rewrite step_deletingId; [exact H0|].
    destruct (Trace.touches_delete ev); [discriminate|reflexivity]. }
  unfold deleteLabel, deleteDisabled. rewrite Hs. split; reflexivity.
Qed.

Lemma delete_button_gating_witness :
  forallb (fun ev => negb (Trace.touches_delete ev))
    [Trace.EDownloadStart rec_f2; Trace.EDescriptionChange "memo"] = true /\
  deleteDisabled (Trace.run [Trace.EDownloadStart rec_f2; Trace.EDescriptionChange "memo"]
                    (handleDelete_start "f1" initialState)) rec_f2 = false.
Proof.
  split; [reflexivity|].
  apply (proj1 (proj1 delete_button_gating "f1" initialState
                  [Trace.EDownloadStart rec_f2; Trace.EDescriptionChange "memo"] rec_f2
                  eq_refl)).
Defined.

(** Two overlapping downloads of different files share the single
    [activeDownloadId] slot: once the second starts, the first row's
    button is enabled again though its download is in flight, and when
    the first settles the second row's button is enabled too. *)
Theorem overlapping_downloads_share_flag :
  forall a b ra s,
    FileRecord.id a <> FileRecord.id b ->
    let s1 := handleDownload_start b (handleDownload_start a s) in
    downloadDisabled s1 a = false /\ downloadDisabled s1 b = true /\
    downloadDisabled (handleDownload_settle a ra s1) b = false.
Proof.
  intros a b ra s Hne s1. subst s1. cbn. split; [|split].
  - apply String.eqb_neq. intros E. apply Hne. symmetry. exact E.
  - apply String.eqb_refl.
  - reflexivity.
Qed.

Lemma overlapping_downloads_share_flag_witness :
  downloadDisabled (handleDownload_start rec_f2 (handleDownload_start rec_f1 initialState))
    rec_f1 = false.
Proof.
  apply (overlapping_downloads_share_flag rec_f1 rec_f2 (Responded true (BlobOk None))
           initialState).
  discriminate.
Defined.

(** Two overlapping listings: the first to settle already clears
    [isLoading] while the other is in flight, and the listing that
    settles last decides [files], even when it was sent first. *)
Theorem overlapping_lists_last_settle_wins :
  forall r2 l1 s,
    let s2 := fetchFiles_start (fetchFiles_start s) in
    isLoading (fetchFiles_settle r2 s2) = false /\
    files (fetchFiles_settle (Responded true (JsonOk (PArray l1)))
             (fetchFiles_settle r2 s2)) = l1.
Proof. intros. split; reflexivity. Qed.

(** After a 2xx upload the follow-up listing runs: when it succeeds,
    [files] is its list and no error is shown; when it fails, its error
    is shown and [files] is kept, yet the selection is already cleared.
    Both flags are idle at the end. *)
Theorem upload_then_list :
  forall f body lr s, selectedFile s = Some f ->
    let s' := handleUpload (Responded true body) lr s in
    isLoading s' = false /\ isUploading s' = false /\ selectedFile s' = None /\
    (forall l, list_outcome lr = inr l -> files s' = l /\ errorMessage s' = None) /\
    (forall e, list_outcome lr = inl e ->
       files s' = files s /\ errorMessage s' = Some (error_message e msg_list_fallback)).
Proof.
  intros f body lr s H s'. subst s'. unfold handleUpload. rewrite H. cbn.
  split; [|split; [reflexivity|]].
  - destruct (list_outcome lr); reflexivity.
  - split; [destruct (list_outcome lr); reflexivity|].
    split; intros x Hx; unfold fetchFiles_settle; rewrite Hx; split; reflexivity.
Qed.

Lemma upload_then_list_witness :
  files (handleUpload (Responded true tt) (Responded true (JsonOk (PArray [rec_f1])))
           (setSelectedFile (Some (mkFile "a.txt" 10%float "text/plain")) initialState))
    = [rec_f1].
Proof.
  apply (proj1 (proj2 (proj2 (proj2
           (upload_then_list (mkFile "a.txt" 10%float "text/plain") tt
              (Responded true (JsonOk (PArray [rec_f1])))
              (setSelectedFile (Some (mkFile "a.txt" 10%float "text/plain")) initialState)
              eq_refl)))) [rec_f1] eq_refl).
Defined.

(** The file input keeps the first chosen file; a [null] or empty
    [FileList] clears the selection, after which an upload is refused
    without a request. *)
Theorem file_input_selection :
  forall s,
    (forall f rest, selectedFile (onFileChange (Some (f :: rest)) s) = Some f) /\
    selectedFile (onFileChange None s) = None /\
    selectedFile (onFileChange (Some []) s) = None /\
    (forall chosen r lr,
       (chosen = None \/ chosen = Some []) ->
       requests (handleUpload r lr (onFileChange chosen s)) = requests s /\
       errorMessage (handleUpload r lr (onFileChange chosen s)) = Some msg_select).
Proof.
  intros s. split; [reflexivity|]. split; [reflexivity|]. split; [reflexivity|].
  intros chosen r lr [->| ->]; split; reflexivity.
Qed.

Lemma file_input_selection_witness :
  requests (handleUpload (Responded true tt) (Responded true (JsonOk (PArray [])))
              (onFileChange (Some []) initialState)) = [].
Proof.
  apply (proj2 (proj2 (proj2 (file_input_selection initialState))) (Some [])
           (Responded true tt) (Responded true (JsonOk (PArray []))) (or_intror eq_refl)).
Defined.



(** A failed attempt stores exactly its failure message, and the error
    banner shows exactly when that message is non-empty.  A non-2xx
    response always shows the banner (its fixed texts are non-empty),
    while a thrown [Error] whose message is empty is stored as [""],
    which the banner treats as no error: at every throw site of the four
    operations ([fetch], [response.json()] in a listing or an upload's
    follow-up listing, [response.blob()], the save-as trigger). *)
Theorem error_banner_visibility :
  (forall ev s m, Trace.failure_message ev s = Some m ->
     errorMessage (Trace.step ev s) = Some m /\
     showErrorBanner (Trace.step ev s) = negb (String.eqb m "")) /\
  (forall b s, showErrorBanner (fetchFiles (Responded false b) s) = true) /\
  (forall f b lr s, selectedFile s = Some f ->
     showErrorBanner (handleUpload (Responded false b) lr s) = true) /\
  (forall file b s, showErrorBanner (handleDownload file (Responded false b) s) = true) /\
  (forall fileId b s, showErrorBanner (handleDelete fileId (Responded false b) s) = true) /\
  (forall s,
     errorMessage (fetchFiles (FetchThrows (ErrorObj "")) s) = Some "" /\
     showErrorBanner (fetchFiles (FetchThrows (ErrorObj "")) s) = false /\
     showErrorBanner (fetchFiles (Responded true (JsonThrows (ErrorObj ""))) s) = false) /\
  (forall f lr s, selectedFile s = Some f ->
     showErrorBanner (handleUpload (FetchThrows (ErrorObj "")) lr s) = false /\
     showErrorBanner (handleUpload (Responded true tt) (FetchThrows (ErrorObj "")) s) = false /\
     showErrorBanner (handleUpload (Responded true tt)
                        (Responded true (JsonThrows (ErrorObj ""))) s) = false) /\
  (forall file st s,
     showErrorBanner (handleDownload file (FetchThrows (ErrorObj "")) s) = false /\
     showErrorBanner (handleDownload file (Responded true (BlobThrows (ErrorObj ""))) s)
       = false /\
     showErrorBanner (handleDownload file (Responded true (BlobOk (Some (st, ErrorObj ""))))
                        s) = false) /\
  (forall fileId s,
     showErrorBanner (handleDelete fileId (FetchThrows (ErrorObj "")) s) = false).
Proof.
  split.
  { intros ev s m H. unfold showErrorBanner, truthy.
    rewrite step_errorMessage, H. split; reflexivity. }
  split; [reflexivity|]. split.
  { intros f b lr s H. unfold handleUpload. rewrite H. reflexivity. }
  split.
  { intros file b s. unfold showErrorBanner, truthy. cbn.
    unfold msg_download. destruct (FileRecord.fileName file); reflexivity. }
  split; [reflexivity|].
  split; [intros s; split; [|split]; reflexivity|].
  split.
  { intros f lr s H. unfold handleUpload. rewrite H. split; [|split]; reflexivity. }
  split; [intros file st s; split; [|split]; reflexivity|].
  reflexivity.
Qed.

Lemma error_banner_visibility_witness :
  showErrorBanner (handleUpload (Responded false tt) (Responded true (JsonOk (PArray [])))
     (setSelectedFile (Some (mkFile "a.txt" 10%float "text/plain")) initialState)) = true.
Proof.
  apply (proj1 (proj2 (proj2 error_banner_visibility)) (mkFile "a.txt" 10%float "text/plain")).
  reflexivity.
Defined.

(** Each failed listing, download or delete passes exactly one value to
    [console.error], the one whose message (or the fallback text) the
    banner shows; a successful one logs nothing. *)
Theorem failures_logged_once :
  (forall r s,
     match list_outcome r with
     | inl e => consoleErrors (fetchFiles r s) = (consoleErrors s ++ [e])%list /\
                errorMessage (fetchFiles r s) = Some (error_message e msg_list_fallback)
     | inr _ => consoleErrors (fetchFiles r s) = consoleErrors s
     end) /\
  (forall fileId r s,
     if response_ok r then consoleErrors (handleDelete fileId r s) = consoleErrors s
     else exists e, consoleErrors (handleDelete fileId r s) = (consoleErrors s ++ [e])%list /\
                    errorMessage (handleDelete fileId r s)
                      = Some (error_message e msg_delete_fallback)) /\
  (forall file r s,
     match r with
     | Responded true (BlobOk None) =>
         consoleErrors (handleDownload file r s) = consoleErrors s
     | _ => exists e, consoleErrors (handleDownload file r s) = (consoleErrors s ++ [e])%list /\
                      errorMessage (handleDownload file r s)
                        = Some (error_message e msg_download_fallback)
     end).
Proof.
  split; [|split].
  - intros r s. unfold fetchFiles, fetchFiles_settle.
    destruct (list_outcome r); split; reflexivity.
  - intros fileId r s. destruct r as [e|[|] body]; cbn; eauto; eexists; split; reflexivity.
  - intros file r s. destruct r as [e|[|] [e|[[st e]|]]]; cbn; try reflexivity;
      eexists; split; reflexivity.
Qed.

(** Listing, download and delete each send exactly one request, whatever
    the outcome: no retry, and no re-listing after a delete. *)
Theorem one_request_per_operation :
  (forall r s, requests (fetchFiles r s) = (requests s ++ [GetFiles])%list) /\
  (forall file r s, requests (handleDownload file r s)
                      = (requests s ++ [GetDownload (FileRecord.id file)])%list) /\
  (forall fileId r s, requests (handleDelete fileId r s)
                        = (requests s ++ [DeleteFile fileId])%list).
Proof.
  split; [|split].
  - intros r s. destruct r as [e|[|] [e|[l|l|]]]; reflexivity.
  - intros file r s. destruct r as [e|[|] [e|[[st e]|]]]; reflexivity.
  - intros fileId r s. destruct r as [e|[|] body]; reflexivity.
Qed.

(** With no records the header shows a count of 0 and a total size of
    ["0 B"]: the [reduce] starts from 0 and [formatFileSize] special-cases
    it. *)
Theorem empty_list_header :
  forall s, files s = [] -> fileCount s = 0%nat /\ totalSizeText s = Some "0 B".
Proof.
  intros s H. unfold fileCount, totalSizeText, totalSize. rewrite H.
  split; reflexivity.
Qed.

Lemma empty_list_header_witness : totalSizeText initialState = Some "0 B".
Proof. apply (empty_list_header initialState). reflexivity. Defined.
